(** * The Alice moderation adapter for Parlant

    A shallow embedding of [parlant/contrib/alice/alice.py]: the [Alice]
    class with its constructor, [check_message], the engine hook
    [check_message_compliance] and [configure_container].

    Python objects that the adapter only passes along are kept as data;
    everything the adapter does to the outside world (the call to the
    moderation SDK, a logged warning, an emitted message event, a write to
    the dependency container) is recorded in an explicit world that is
    threaded through a small state-and-exception monad. *)

From stdpp Require Import gmap strings list fin_maps.

Open Scope string_scope.

(** ** Python values, truthiness and exceptions *)

(** A value of static type [Any] that the adapter inspects only with
    [is None] and formats only with [str()]: [None], a [str], or any other
    object, kept as its [str()] rendering. *)
Inductive pyval : Type :=
| PyNone
| PyStr (s : string)
| PyObj (rendering : string).

Global Instance pyval_eq_dec : EqDecision pyval.
Proof. solve_decision. Defined.

Definition is_None (v : pyval) : bool :=
  match v with PyNone => true | _ => false end.

(** [str(v)], as an f-string field applies it. *)
Definition py_str (v : pyval) : string :=
  match v with
  | PyNone => "None"
  | PyStr s => s
  | PyObj r => r
  end.

(** [bool(v)] for [v : Optional[str]]: [None] and [''] are falsy. *)
Definition truthy (v : option string) : bool :=
  match v with
  | None => false
  | Some s => negb (String.eqb s "")
  end.

(** [x or y] on [Optional[str]]: [x] when it is truthy, else [y]. *)
Definition py_or (x y : option string) : option string :=
  if truthy x then x else y.

(** The exceptions that can travel through the adapter.  [Exception msg
    cause] is what [raise Exception(msg) from cause] raises; any other
    class deriving from [Exception] is an [OtherException]; the last three
    constructors derive from [BaseException] only. *)
Inductive PyExn : Type :=
| ValueError (msg : string)
| Exception (msg : string) (cause : PyExn)
| AttributeError (msg : string)
| TypeError (msg : string)
| UnresolvableType (key : string)
| OtherException (cls msg : string)
| CancelledError
| KeyboardInterrupt
| SystemExit.

(** [isinstance(e, Exception)]: what an [except Exception] clause
    catches. *)
Definition is_Exception (e : PyExn) : bool :=
  match e with
  | CancelledError | KeyboardInterrupt | SystemExit => false
  | _ => true
  end.

Definition is_ValueError (e : PyExn) : bool :=
  match e with ValueError _ => true | _ => false end.

(** [o is None] for an optional argument. *)
Definition opt_is_None {A : Type} (o : option A) : bool :=
  match o with Some _ => false | None => true end.

(** The outcome of running Python code: a value or a raised exception. *)
Inductive Result (A : Type) : Type :=
| Ok (a : A)
| Raise (e : PyExn).
Arguments Ok {A} a.
Arguments Raise {A} e.

(** ** Configuration: [os.getenv] and [Alice.__init__] *)

(** [os.getenv(key)]: the process environment is a finite map. *)
Definition getenv (environ : gmap string string) (key : string)
  : option string :=
  environ !! key.

(** [os.getenv(key, default)]. *)
Definition getenv_default (environ : gmap string string)
    (key fallback : string) : string :=
  match environ !! key with
  | Some v => v
  | None => fallback
  end.

(** [WonderFenceClient(api_key=..., app_name=...)]: the adapter only
    constructs the client and hands it on, so it is kept as the pair of
    arguments it was built from. *)
Record SDKClient : Type := mkSDKClient {
  client_api_key : option string;
  client_app_name : option string
}.

Record Alice : Type := mkAlice {
  api_key : option string;
  app_name : option string;
  blocked_message : option string;
  _client : SDKClient
}.

Definition default_blocked_message : string :=
  "The generated message was blocked by guardrails.".

Definition api_key_required : string :=
  "Alice API key is required. Please provide it via the 'api_key' parameter or set the ALICE_API_KEY environment variable.".

Definition __init__ (environ : gmap string string)
    (api_key app_name blocked_message : option string) : Result Alice :=
  let self_api_key := py_or api_key (getenv environ "ALICE_API_KEY") in
  let self_app_name := py_or app_name (getenv environ "ALICE_APP_NAME") in
  let self_blocked_message :=
    py_or blocked_message
      (Some (getenv_default environ "ALICE_BLOCKED_MESSAGE"
               default_blocked_message)) in
  if negb (truthy self_api_key) then
    Raise (ValueError api_key_required)
  else
    Ok {| api_key := self_api_key;
          app_name := self_app_name;
          blocked_message := self_blocked_message;
          _client := mkSDKClient self_api_key self_app_name |}.

(** ** The world outside the adapter *)

(** [AnalysisContext(user_id=..., session_id=...)]. *)
Record AnalysisContext : Type := mkAnalysisContext {
  user_id : string;
  session_id : string
}.

(** [wonderfence_sdk.models.Actions].
    Modelled from the spec: the SDK's enumeration is not part of the
    repository; its glossary entry lists the verdicts allow, detect, block
    and mask. *)
Inductive Actions : Type := ALLOW | DETECT | BLOCK | MASK.

Global Instance Actions_eq_dec : EqDecision Actions.
Proof. solve_decision. Defined.

(** [p.EngineHookResult]: the two members the hook returns. *)
Inductive EngineHookResult : Type := CALL_NEXT | BAIL.

(** [p.MessageEventData(message=..., participant={...})]. *)
Record Participant : Type := mkParticipant {
  participant_id : string;
  display_name : string
}.

Record MessageEventData : Type := mkMessageEventData {
  message : option string;
  participant : Participant
}.

(** The part of [p.EngineContext] the hook reads: [ctx.session.id],
    [ctx.agent.id], [ctx.agent.name] and [ctx.tracer.trace_id].  The
    logger and the event emitter of the context are the two sinks of
    [Effect] below. *)
Record EngineContext : Type := mkEngineContext {
  ctx_session_id : string;
  ctx_agent_id : string;
  ctx_agent_name : string;
  ctx_trace_id : string
}.

Section Adapter.

(** The SDK's [ImageInput] and the entries of [result.detections] are
    opaque to the adapter; [repr_detections] is the rendering that the
    f-string field [{result.detections}] produces. *)
Variable ImageInput : Type.
Variable Detection : Type.
Variable repr_detections : list Detection -> string.

(** [EvaluateMessageResponse]: the three attributes the hook reads. *)
Record EvaluateMessageResponse : Type := mkEvaluateMessageResponse {
  action : Actions;
  action_text : option string;
  detections : list Detection
}.

(** Everything observable that the adapter does, in program order. *)
Inductive Effect : Type :=
| SdkCall (client : SDKClient) (context : AnalysisContext)
          (response : pyval) (image : option ImageInput)
| LogWarning (text : string)
| EmitMessage (trace_id : string) (data : MessageEventData).

(** What one [evaluate_response] call does: it returns a response or it
    raises. *)
Inductive SdkOutcome : Type :=
| SdkReturns (r : EvaluateMessageResponse)
| SdkRaises (e : PyExn).

(** The moderation service is external: its answer may depend on the
    arguments and on everything that happened before the call. *)
Variable sdk :
  list Effect -> SDKClient -> AnalysisContext -> pyval -> option ImageInput ->
  SdkOutcome.

(** *** Objects of the host framework *)

(** A hook registered on the engine: one installed by the host or by
    another plugin, or the bound method [self.check_message_compliance]. *)
Inductive Hook : Type :=
| HostHook (tag : string)
| check_message_compliance_of (self : Alice).

(** [p.EngineHooks].
    Modelled from the spec: the host's class is not part of the
    repository; it holds the list [on_message_generated] next to the lists
    of the other extension points, kept by attribute name. *)
Record EngineHooks : Type := mkEngineHooks {
  on_message_generated : list Hook;
  other_hook_lists : gmap string (list Hook)
}.

(** What a container binds a key to.  Mutable objects are bound by
    reference. *)
Inductive Value : Type :=
| VHost (tag : string)
| VRef (l : positive)
| VAliceNLPServiceWrapper (original : Value) (client : SDKClient)
                          (logger meter : Value)
| VAlice (a : Alice).

(** [p.Container].
    Modelled from the spec: the plugin host's dependency container is not
    part of the repository; it maps keys (the classes [p.NLPService],
    [p.Logger], ..., by name) to bindings, [container[k]] raises when [k]
    is unbound and [container[k] = v] binds [k] to [v]. *)
Inductive Obj : Type :=
| ObjContainer (bindings : gmap string Value)
| ObjEngineHooks (hooks : EngineHooks).

Record World : Type := mkWorld {
  trace : list Effect;
  heap : gmap positive Obj
}.

(** *** The monad of the embedding: state and exceptions *)

Definition M (A : Type) : Type := World -> Result A * World.

Definition ret {A : Type} (a : A) : M A := fun w => (Ok a, w).

Definition raise {A : Type} (e : PyExn) : M A := fun w => (Raise e, w).

Definition bind {A B : Type} (m : M A) (k : A -> M B) : M B :=
  fun w =>
    match m w with
    | (Ok a, w') => k a w'
    | (Raise e, w') => (Raise e, w')
    end.

(** [try: body / except Exception as e: handler e]. *)
Definition try_except_Exception {A : Type} (body : M A)
    (handler : PyExn -> M A) : M A :=
  fun w =>
    match body w with
    | (Ok a, w') => (Ok a, w')
    | (Raise e, w') =>
        if is_Exception e then handler e w' else (Raise e, w')
    end.

(** A warning handed to [ctx.logger] or an event handed to
    [ctx.session_event_emitter]: the host's sinks take it and return. *)
Definition perform (e : Effect) : M unit :=
  fun w => (Ok tt, {| trace := trace w ++ [e]; heap := heap w |}).

Notation "'let*' x ':=' m 'in' k" := (bind m (fun x => k))
  (at level 10, x name, m at level 100, k at level 200).
Notation "m ';;' k" := (bind m (fun _ => k))
  (at level 100, k at level 200, right associativity).

(** ** The moderation call *)

(** [await self._client.evaluate_response(context=..., response=...,
    image=...)]: the call is recorded, and the service decides what comes
    back. *)
Definition evaluate_response (client : SDKClient)
    (context : AnalysisContext) (response : pyval)
    (image : option ImageInput) : M EvaluateMessageResponse :=
  fun w =>
    let w' := {| trace := trace w ++ [SdkCall client context response image];
                 heap := heap w |} in
    match sdk (trace w) client context response image with
    | SdkReturns r => (Ok r, w')
    | SdkRaises e => (Raise e, w')
    end.

Definition moderation_failure : string :=
  "Moderation service failure (Alice)".

Definition check_message (self : Alice) (session_id agent_id : string)
    (message : pyval) (image : option ImageInput)
  : M EvaluateMessageResponse :=
  if is_None message && opt_is_None image then
    raise (ValueError "Either message or image must be provided")
  else if negb (is_None message) && negb (opt_is_None image) then
    raise (ValueError
      "Cannot provide both message and image - they are mutually exclusive")
  else
    let analysis_context :=
      {| user_id := agent_id; session_id := session_id |} in
    let* analysis_result :=
      try_except_Exception
        (evaluate_response (_client self) analysis_context message image)
        (fun e => raise (Exception moderation_failure e)) in
    ret analysis_result.

(** ** The engine hook *)

Definition detected_warning (generated_message : pyval)
    (result : EvaluateMessageResponse) : string :=
  "Detected a non-compliant message: '" ++ py_str generated_message
    ++ "': " ++ repr_detections (detections result) ++ ".".

Definition prevented_warning (generated_message : pyval) : string :=
  "Prevented sending a non-compliant message: '"
    ++ py_str generated_message ++ "'.".

Definition check_message_compliance (self : Alice) (ctx : EngineContext)
    (payload : pyval) (exc : option PyExn) : M EngineHookResult :=
  let generated_message := payload in
  let* result :=
    check_message self (ctx_session_id ctx) (ctx_agent_id ctx)
      generated_message None in
  if bool_decide (action result = DETECT) then
    perform (LogWarning (detected_warning generated_message result));;
    ret CALL_NEXT
  else if bool_decide (action result = BLOCK)
          || bool_decide (action result = MASK) then
    let message :=
      if bool_decide (action result = MASK) then action_text result
      else blocked_message self in
    perform (LogWarning (prevented_warning generated_message));;
    perform (EmitMessage (ctx_trace_id ctx)
               {| message := message;
                  participant :=
                    {| participant_id := ctx_agent_id ctx;
                       display_name := ctx_agent_name ctx |} |});;
    ret BAIL
  else
    ret CALL_NEXT.

(** ** Registration in the host's container *)

Definition NLPService_key : string := "NLPService".
Definition Logger_key : string := "Logger".
Definition Meter_key : string := "Meter".
Definition EngineHooks_key : string := "EngineHooks".
Definition Alice_key : string := "Alice".

(** [container[key]]. *)
Definition container_getitem (container : positive) (key : string)
  : M Value :=
  fun w =>
    match heap w !! container with
    | Some (ObjContainer bindings) =>
        match bindings !! key with
        | Some v => (Ok v, w)
        | None => (Raise (UnresolvableType key), w)
        end
    | _ => (Raise (TypeError "object is not subscriptable"), w)
    end.

(** [container[key] = v]. *)
Definition container_setitem (container : positive) (key : string)
    (v : Value) : M unit :=
  fun w =>
    match heap w !! container with
    | Some (ObjContainer bindings) =>
        (Ok tt,
         {| trace := trace w;
            heap := <[container := ObjContainer (<[key := v]> bindings)]>
                      (heap w) |})
    | _ =>
        (Raise (TypeError "object does not support item assignment"), w)
    end.

(** [target.on_message_generated.append(h)]: the list of the object that
    [target] refers to is extended in place. *)
Definition on_message_generated_append (target : Value) (h : Hook)
  : M unit :=
  fun w =>
    match target with
    | VRef l =>
        match heap w !! l with
        | Some (ObjEngineHooks hooks) =>
            (Ok tt,
             {| trace := trace w;
                heap :=
                  <[l := ObjEngineHooks
                           {| on_message_generated :=
                                on_message_generated hooks ++ [h];
                              other_hook_lists := other_hook_lists hooks |}]>
                    (heap w) |})
        | _ => (Raise (AttributeError "on_message_generated"), w)
        end
    | _ => (Raise (AttributeError "on_message_generated"), w)
    end.

Definition configure_container (self : Alice) (container : positive)
  : M positive :=
  let* original_nlp_service := container_getitem container NLPService_key in
  let* logger := container_getitem container Logger_key in
  let* meter := container_getitem container Meter_key in
  let wrapped_nlp_service :=
    VAliceNLPServiceWrapper original_nlp_service (_client self)
      logger meter in
  container_setitem container NLPService_key wrapped_nlp_service;;
  (let* hooks := container_getitem container EngineHooks_key in
   on_message_generated_append hooks (check_message_compliance_of self));;
  container_setitem container Alice_key (VAlice self);;
  ret container.

End Adapter.

Arguments SdkCall {ImageInput} client context response image.
Arguments LogWarning {ImageInput} text.
Arguments EmitMessage {ImageInput} trace_id data.
Arguments mkEvaluateMessageResponse {Detection} action action_text detections.
Arguments action {Detection} e.
Arguments action_text {Detection} e.
Arguments detections {Detection} e.
Arguments SdkReturns {Detection} r.
Arguments SdkRaises {Detection} e.
Arguments mkWorld {ImageInput} trace heap.
Arguments trace {ImageInput} w.
Arguments heap {ImageInput} w.
Arguments perform {ImageInput} e _.
Arguments evaluate_response {ImageInput Detection} sdk client context
  response image _.
Arguments check_message {ImageInput Detection} sdk self session_id agent_id
  message image _.
Arguments check_message_compliance {ImageInput Detection} repr_detections sdk
  self ctx payload exc _.
Arguments detected_warning {Detection} repr_detections generated_message
  result.
Arguments container_getitem {ImageInput} container key _.
Arguments container_setitem {ImageInput} container key v _.
Arguments on_message_generated_append {ImageInput} target h _.
Arguments configure_container {ImageInput} self container _.

(** ** Vocabulary of the statements *)

(** A constructor parameter or environment variable that supplies no
    value: it is absent, or it is the empty string. *)
Definition absent (v : option string) : Prop :=
  v = None \/ v = Some "".

(** The world [w] after the effects [es] happened, in that order. *)
Definition after {ImageInput : Type} (w : World ImageInput)
    (es : list (Effect ImageInput)) : World ImageInput :=
  {| trace := trace w ++ es; heap := heap w |}.

Definition is_SdkCall {ImageInput : Type} (e : Effect ImageInput) : bool :=
  match e with SdkCall _ _ _ _ => true | _ => false end.

(** How often [evaluate_response] was called in a trace. *)
Definition sdk_call_count {ImageInput : Type}
    (t : list (Effect ImageInput)) : nat :=
  length (filter (fun e => is_SdkCall e = true) t).

(** Exactly one of [message] and [image] is provided. *)
Definition exactly_one_provided {ImageInput : Type} (message : pyval)
    (image : option ImageInput) : Prop :=
  (message <> PyNone /\ image = None) \/ (message = PyNone /\ image <> None).

(** The [MessageEventData] the hook builds around [text]. *)
Definition agent_message (ctx : EngineContext) (text : option string)
  : MessageEventData :=
  {| message := text;
     participant := {| participant_id := ctx_agent_id ctx;
                       display_name := ctx_agent_name ctx |} |}.

Definition is_EmitMessage {ImageInput : Type} (e : Effect ImageInput)
  : bool :=
  match e with EmitMessage _ _ => true | _ => false end.

(** How many message events a trace holds. *)
Definition emit_count {ImageInput : Type} (t : list (Effect ImageInput))
  : nat :=
  length (filter (fun e => is_EmitMessage e = true) t).

Definition is_LogWarning {ImageInput : Type} (e : Effect ImageInput)
  : bool :=
  match e with LogWarning _ => true | _ => false end.

(** How many warnings a trace holds. *)
Definition warning_count {ImageInput : Type} (t : list (Effect ImageInput))
  : nat :=
  length (filter (fun e => is_LogWarning e = true) t).

(** The hook told the engine not to send the generated message. *)
Definition is_BAIL (res : Result EngineHookResult) : bool :=
  match res with Ok BAIL => true | _ => false end.

(** The wrapper [configure_container] puts around the NLP service. *)
Definition wrapped_nlp_service (self : Alice) (nlp logger meter : Value)
  : Value :=
  VAliceNLPServiceWrapper nlp (_client self) logger meter.

(** The world once the container's NLP service is rebound to the
    wrapper, and nothing else has changed. *)
Definition rebound {ImageInput : Type} (self : Alice) (container : positive)
    (bindings : gmap string Value) (nlp logger meter : Value)
    (w : World ImageInput) : World ImageInput :=
  {| trace := trace w;
     heap := <[container :=
                 ObjContainer
                   (<[NLPService_key :=
                        wrapped_nlp_service self nlp logger meter]>
                      bindings)]> (heap w) |}.

(** The world once the hook is appended and Alice is bound as well. *)
Definition configured {ImageInput : Type} (self : Alice)
    (container hooks_ref : positive) (bindings : gmap string Value)
    (nlp logger meter : Value) (hooks : EngineHooks)
    (w : World ImageInput) : World ImageInput :=
  {| trace := trace w;
     heap :=
       <[container :=
           ObjContainer
             (<[Alice_key := VAlice self]>
                (<[NLPService_key :=
                     wrapped_nlp_service self nlp logger meter]>
                   bindings))]>
         (<[hooks_ref :=
              ObjEngineHooks
                {| on_message_generated :=
                     on_message_generated hooks
                       ++ [check_message_compliance_of self];
                   other_hook_lists := other_hook_lists hooks |}]>
            (heap (rebound self container bindings nlp logger meter w))) |}.

(** The container's engine hooks can be reached: the key is bound to a
    reference, and the reference leads to an engine-hooks object. *)
Definition hooks_reachable {ImageInput : Type}
    (bindings : gmap string Value) (w : World ImageInput)
    (hooks_ref : positive) (hooks : EngineHooks) : Prop :=
  bindings !! EngineHooks_key = Some (VRef hooks_ref) /\
  heap w !! hooks_ref = Some (ObjEngineHooks hooks).

(** What the hooks step raises when the hooks cannot be reached. *)
Definition hooks_failure (bindings : gmap string Value) : PyExn :=
  match bindings !! EngineHooks_key with
  | None => UnresolvableType EngineHooks_key
  | Some _ => AttributeError "on_message_generated"
  end.

(** ** Sample objects *)

Module Sample.

Definition alice : Alice :=
  {| api_key := Some "key-1";
     app_name := Some "shop-bot";
     blocked_message := Some default_blocked_message;
     _client := mkSDKClient (Some "key-1") (Some "shop-bot") |}.

Definition ctx : EngineContext :=
  {| ctx_session_id := "session-7";
     ctx_agent_id := "agent-3";
     ctx_agent_name := "Helper";
     ctx_trace_id := "trace-42" |}.

Definition repr_detections (ds : list string) : string :=
  "[" ++ String.concat ", " ds ++ "]".

(** A service that answers every call with the same verdict. *)
Definition sdk_answering (a : Actions) (text : option string)
    (ds : list string)
  : list (Effect unit) -> SDKClient -> AnalysisContext -> pyval ->
    option unit -> SdkOutcome string :=
  fun _ _ _ _ _ => SdkReturns (mkEvaluateMessageResponse a text ds).

(** A service whose every call raises [e]. *)
Definition sdk_raising (e : PyExn)
  : list (Effect unit) -> SDKClient -> AnalysisContext -> pyval ->
    option unit -> SdkOutcome string :=
  fun _ _ _ _ _ => SdkRaises e.

Definition empty_world : World unit := {| trace := []; heap := ∅ |}.

Definition host_hooks : EngineHooks :=
  {| on_message_generated := [HostHook "audit"];
     other_hook_lists := {[ "on_preparing" := [HostHook "warmup"] ]} |}.

Definition host_bindings : gmap string Value :=
  {[ NLPService_key := VHost "openai";
     Logger_key := VHost "logger";
     Meter_key := VHost "meter";
     EngineHooks_key := VRef 2%positive;
     "SessionStore" := VHost "sessions" ]}.

(** A container of a host that registered no engine hooks. *)
Definition bare_bindings : gmap string Value :=
  {[ NLPService_key := VHost "openai";
     Logger_key := VHost "logger";
     Meter_key := VHost "meter" ]}.

Definition bare_world : World unit :=
  {| trace := [];
     heap := {[ 1%positive := ObjContainer bare_bindings ]} |}.

(** A host world: the container at address 1, its hooks at address 2. *)
Definition host_world : World unit :=
  {| trace := [];
     heap := {[ 1%positive := ObjContainer host_bindings;
                2%positive := ObjEngineHooks host_hooks ]} |}.

End Sample.

(** * Properties *)

(** ** Truthiness *)

Lemma truthy_false_absent (v : option string) :
  truthy v = false <-> absent v.
Proof.
  unfold absent. destruct v as [s|]; simpl.
  - destruct s as [|c s]; simpl; split; intros H; auto.
    + discriminate.
    + destruct H as [H|H]; discriminate.
  - split; auto.
Qed.

Lemma truthy_true_supplied (v : option string) :
  truthy v = true <-> ~ absent v.
Proof.
  rewrite <- truthy_false_absent. destruct (truthy v); split; intros H;
    congruence.
Qed.

Lemma py_or_absent (x y : option string) : absent x -> py_or x y = y.
Proof.
  intros H. apply truthy_false_absent in H. unfold py_or. now rewrite H.
Qed.

Lemma py_or_supplied (x y : option string) : ~ absent x -> py_or x y = x.
Proof.
  intros H. apply truthy_true_supplied in H. unfold py_or. now rewrite H.
Qed.

Lemma init_Ok_fields environ a n b self :
  __init__ environ a n b = Ok self ->
  api_key self = py_or a (getenv environ "ALICE_API_KEY") /\
  app_name self = py_or n (getenv environ "ALICE_APP_NAME") /\
  blocked_message self =
    py_or b (Some (getenv_default environ "ALICE_BLOCKED_MESSAGE"
                     default_blocked_message)) /\
  _client self = mkSDKClient (api_key self) (app_name self).
Proof.
  unfold __init__.
  destruct (negb (truthy (py_or a (getenv environ "ALICE_API_KEY"))));
    [discriminate|].
  intros [= <-]. simpl. auto.
Qed.

(** ** The constructor *)

Lemma api_key_unavailable_iff (environ : gmap string string)
    (a : option string) :
  truthy (py_or a (getenv environ "ALICE_API_KEY")) = false <->
  absent a /\ absent (environ !! "ALICE_API_KEY").
Proof.
  unfold py_or, getenv. destruct (truthy a) eqn:Ha.
  - rewrite Ha. split; [discriminate|].
    intros [Habs _]. apply truthy_false_absent in Habs. congruence.
  - rewrite !truthy_false_absent. apply truthy_false_absent in Ha. tauto.
Qed.

(** With a key at hand the constructor returns. *)
Lemma init_returns (environ : gmap string string) (a n b : option string) :
  ~ (absent a /\ absent (environ !! "ALICE_API_KEY")) ->
  exists self, __init__ environ a n b = Ok self.
Proof.
  intros Hkey. rewrite <- api_key_unavailable_iff in Hkey.
  unfold __init__.
  destruct (truthy (py_or a (getenv environ "ALICE_API_KEY")));
    [simpl; eauto | now destruct Hkey].
Qed.

(** C4, as the code has it: with a key at hand the constructor returns,
    and each attribute of the instance is the parameter if the parameter
    supplies a value (it is neither [None] nor empty); otherwise
    [api_key] is the value of [ALICE_API_KEY], [app_name] that of
    [ALICE_APP_NAME], and [blocked_message] that of
    [ALICE_BLOCKED_MESSAGE] whenever the variable is set, be it to the
    empty string, and the built-in default when the variable is unset. *)
Theorem init_env_fallback (environ : gmap string string)
    (a n b : option string) :
  (~ (absent a /\ absent (environ !! "ALICE_API_KEY")) ->
   exists self, __init__ environ a n b = Ok self) /\
  (forall self,
     __init__ environ a n b = Ok self ->
     (~ absent a -> api_key self = a) /\
     (absent a -> api_key self = environ !! "ALICE_API_KEY") /\
     (~ absent n -> app_name self = n) /\
     (absent n -> app_name self = environ !! "ALICE_APP_NAME") /\
     (~ absent b -> blocked_message self = b) /\
     (absent b ->
      forall v, environ !! "ALICE_BLOCKED_MESSAGE" = Some v ->
      blocked_message self = Some v) /\
     (absent b ->
      environ !! "ALICE_BLOCKED_MESSAGE" = None ->
      blocked_message self =
        Some "The generated message was blocked by guardrails.")).
Proof.
  split; [apply init_returns|].
  intros self H. apply init_Ok_fields in H as (Hk & Hn & Hb & _).
  rewrite Hk, Hn, Hb. unfold getenv, getenv_default.
  repeat split; intros Habs.
  - now apply py_or_supplied.
  - now apply py_or_absent.
  - now apply py_or_supplied.
  - now apply py_or_absent.
  - now apply py_or_supplied.
  - intros v Hv. rewrite py_or_absent by assumption. now rewrite Hv.
  - intros Hv. rewrite py_or_absent by assumption. now rewrite Hv.
Qed.

(** C5: the constructor raises [ValueError] exactly when neither the
    [api_key] parameter nor [ALICE_API_KEY] supplies a value; otherwise it
    returns an instance whose key is the supplied one and whose client is
    built from that key and the resolved application name. *)
Theorem init_raises_iff_no_api_key (environ : gmap string string)
    (a n b : option string) :
  ((exists msg, __init__ environ a n b = Raise (ValueError msg)) <->
   absent a /\ absent (environ !! "ALICE_API_KEY")) /\
  (~ (absent a /\ absent (environ !! "ALICE_API_KEY")) ->
   exists self,
     __init__ environ a n b = Ok self /\
     ~ absent (api_key self) /\
     api_key self = py_or a (environ !! "ALICE_API_KEY") /\
     _client self =
       {| client_api_key := api_key self;
          client_app_name := py_or n (environ !! "ALICE_APP_NAME") |}).
Proof.
  assert (Hkey : truthy (py_or a (getenv environ "ALICE_API_KEY")) = false
                 <-> absent a /\ absent (environ !! "ALICE_API_KEY")).
  { unfold py_or, getenv. destruct (truthy a) eqn:Ha.
    - rewrite Ha. split; [discriminate|].
      intros [Habs _]. apply truthy_false_absent in Habs. congruence.
    - rewrite !truthy_false_absent. apply truthy_false_absent in Ha.
      tauto. }
  split.
  - rewrite <- Hkey. unfold __init__.
    destruct (truthy (py_or a (getenv environ "ALICE_API_KEY"))); simpl.
    + split; [intros [msg Hm]; discriminate | discriminate].
    + split; eauto.
  - rewrite <- Hkey. unfold __init__, getenv.
    destruct (truthy (py_or a (environ !! "ALICE_API_KEY"))) eqn:Ht; simpl.
    + intros _. eexists. split; [reflexivity|]. simpl.
      split; [now apply truthy_true_supplied | auto].
    + intros Hc. now destruct Hc.
Qed.

(** C10: an empty string passed for [api_key], [app_name] or
    [blocked_message] gives the same outcome as [None], and it falls
    through: with [api_key=''] the constructor raises [ValueError] when
    [ALICE_API_KEY] is unset and returns an instance holding the
    variable's key when it is set and not empty; with a key at hand,
    [app_name=''] yields the value of [ALICE_APP_NAME], and
    [blocked_message=''] the value of [ALICE_BLOCKED_MESSAGE] when the
    variable is set and the built-in default when it is unset. *)
Theorem init_empty_string_as_None (environ : gmap string string)
    (a n b : option string) :
  __init__ environ (Some "") n b = __init__ environ None n b /\
  __init__ environ a (Some "") b = __init__ environ a None b /\
  __init__ environ a n (Some "") = __init__ environ a n None /\
  (environ !! "ALICE_API_KEY" = None ->
   __init__ environ (Some "") n b = Raise (ValueError api_key_required)) /\
  (forall key,
     environ !! "ALICE_API_KEY" = Some key -> key <> "" ->
     exists self,
       __init__ environ (Some "") n b = Ok self /\
       api_key self = Some key /\
       client_api_key (_client self) = Some key) /\
  (~ (absent a /\ absent (environ !! "ALICE_API_KEY")) ->
   exists self,
     __init__ environ a (Some "") b = Ok self /\
     app_name self = environ !! "ALICE_APP_NAME" /\
     client_app_name (_client self) = environ !! "ALICE_APP_NAME") /\
  (~ (absent a /\ absent (environ !! "ALICE_API_KEY")) ->
   exists self,
     __init__ environ a n (Some "") = Ok self /\
     (forall v, environ !! "ALICE_BLOCKED_MESSAGE" = Some v ->
                blocked_message self = Some v) /\
     (environ !! "ALICE_BLOCKED_MESSAGE" = None ->
      blocked_message self =
        Some "The generated message was blocked by guardrails.")).
Proof.
  split; [reflexivity|]. split; [reflexivity|]. split; [reflexivity|].
  split; [|split; [|split]].
  - intros Hk. unfold __init__, py_or, getenv. simpl. now rewrite Hk.
  - intros key Hk Hne.
    destruct (init_returns environ (Some "") n b) as [self Hrun].
    { intros [_ [H | H]]; congruence. }
    exists self.
    destruct (init_Ok_fields _ _ _ _ _ Hrun) as (Hkey & _ & _ & Hclient).
    rewrite Hclient, Hkey. simpl. unfold py_or, getenv. simpl. auto.
  - intros Hav. destruct (init_returns environ a (Some "") b Hav)
      as [self Hrun].
    exists self. split; [exact Hrun|].
    destruct (init_Ok_fields _ _ _ _ _ Hrun) as (_ & Hname & _ & Hclient).
    rewrite Hclient, Hname. simpl. auto.
  - intros Hav. destruct (init_returns environ a n (Some "") Hav)
      as [self Hrun].
    exists self. split; [exact Hrun|].
    destruct (init_Ok_fields _ _ _ _ _ Hrun) as (_ & _ & Htext & _).
    rewrite Htext. unfold py_or, getenv_default. simpl.
    split; [intros v Hv | intros Hv]; now rewrite Hv.
Qed.

(** Every instance the constructor returns has a non-empty API key and
    a blocked message that is a string, never [None], and its client was
    built from the instance's own key and application name. *)
Theorem init_instance_invariant (environ : gmap string string)
    (a n b : option string) (self : Alice) :
  __init__ environ a n b = Ok self ->
  (exists key, api_key self = Some key /\ key <> "") /\
  (exists text, blocked_message self = Some text) /\
  _client self =
    {| client_api_key := api_key self; client_app_name := app_name self |}.
Proof.
  intros Hrun.
  pose proof (init_Ok_fields _ _ _ _ _ Hrun) as (Hk & _ & Hb & Hc).
  split; [|split; [|exact Hc]].
  - unfold __init__ in Hrun. rewrite <- Hk in Hrun.
    destruct (truthy (api_key self)) eqn:Ht; [|discriminate].
    destruct (api_key self) as [key|]; [|discriminate].
    exists key. split; [reflexivity|]. intros ->. discriminate.
  - rewrite Hb. unfold py_or.
    destruct (truthy b) eqn:Ht; [|eauto].
    destruct b as [text|]; [eauto | discriminate].
Qed.

Section AdapterProperties.

Context {ImageInput Detection : Type}.
Variable repr_detections : list Detection -> string.
Variable sdk :
  list (Effect ImageInput) -> SDKClient -> AnalysisContext -> pyval ->
  option ImageInput -> SdkOutcome Detection.

Implicit Types (self : Alice) (ctx : EngineContext) (w : World ImageInput).
Implicit Types (message payload : pyval) (image : option ImageInput).

(** ** [check_message] *)

(** Runs [check_message] past its validation, by cases on what the
    service does and on the class of what it raises. *)
Ltac run_check_message :=
  unfold check_message, bind, try_except_Exception, evaluate_response;
  simpl;
  match goal with
  | |- context [sdk ?t ?c ?a ?m ?i] =>
      let e := fresh "e" in
      destruct (sdk t c a m i) as [|e];
      [reflexivity | destruct (is_Exception e); reflexivity]
  end.

(** The three ways through [check_message], by what was provided. *)
Lemma check_message_neither self sid aid w :
  check_message sdk self sid aid PyNone None w =
    (Raise (ValueError "Either message or image must be provided"), w).
Proof. reflexivity. Qed.

Lemma check_message_both self sid aid message img w :
  message <> PyNone ->
  check_message sdk self sid aid message (Some img) w =
    (Raise (ValueError
       "Cannot provide both message and image - they are mutually exclusive"),
     w).
Proof. intros Hm. destruct message; [congruence | reflexivity ..]. Qed.

Lemma check_message_one self sid aid message image w :
  exactly_one_provided message image ->
  check_message sdk self sid aid message image w =
    let call := SdkCall (_client self)
                  {| user_id := aid; session_id := sid |} message image in
    match sdk (trace w) (_client self)
            {| user_id := aid; session_id := sid |} message image with
    | SdkReturns r => (Ok r, after w [call])
    | SdkRaises e =>
        (Raise (if is_Exception e then Exception moderation_failure e else e),
         after w [call])
    end.
Proof.
  intros [[Hm ->] | [-> Hi]].
  - destruct message; [congruence | ..]; run_check_message.
  - destruct image as [img|]; [|congruence]. run_check_message.
Qed.

Lemma provided_cases message image :
  exactly_one_provided message image \/
  (message = PyNone /\ image = None) \/
  (message <> PyNone /\ image <> None).
Proof.
  unfold exactly_one_provided.
  destruct message, image; intuition congruence.
Qed.

(** C2: [check_message] raises [ValueError] exactly when [message] and
    [image] are both [None] or both provided, and then nothing happened:
    the evaluator was not called. *)
Theorem check_message_ValueError_iff self sid aid message image w :
  ((exists msg,
      fst (check_message sdk self sid aid message image w)
        = Raise (ValueError msg)) <->
   (message = PyNone /\ image = None) \/
   (message <> PyNone /\ image <> None)) /\
  ((message = PyNone /\ image = None) \/
   (message <> PyNone /\ image <> None) ->
   snd (check_message sdk self sid aid message image w) = w).
Proof.
  destruct (provided_cases message image) as [Hone | Hbad].
  - rewrite (check_message_one _ _ _ _ _ _ Hone). cbv zeta.
    assert (Hnot : ~ ((message = PyNone /\ image = None) \/
                      (message <> PyNone /\ image <> None))).
    { destruct Hone as [[? ?]|[? ?]]; intuition congruence. }
    split; [|intros H; now destruct Hnot].
    split; [|intros H; now destruct Hnot].
    intros [msg Hm]. exfalso.
    destruct (sdk _ _ _ _ _) as [r|e]; simpl in Hm; [discriminate|].
    destruct (is_Exception e) eqn:He; [discriminate|].
    injection Hm as ->. discriminate.
  - assert (Hw : exists msg,
               check_message sdk self sid aid message image w
                 = (Raise (ValueError msg), w)).
    { destruct Hbad as [[-> ->] | [Hm Hi]].
      - eexists. apply check_message_neither.
      - destruct image as [img|]; [|congruence].
        eexists. now apply check_message_both. }
    destruct Hw as [msg Hw]. rewrite Hw. simpl.
    split; [|reflexivity]. split; eauto.
Qed.

(** C3, as the code has it: a validation failure is raised directly, as
    a [ValueError], before anything happens; when the one evaluator call
    raises an instance of [Exception], [check_message] raises the
    exception [Exception("Moderation service failure (Alice)")] chained
    from it; what derives from [BaseException] only passes through as it
    is; in both cases the call was made once and is not repeated. *)
Theorem check_message_failures self sid aid message image w :
  (message = PyNone -> image = None ->
   check_message sdk self sid aid message image w =
     (Raise (ValueError "Either message or image must be provided"), w)) /\
  (message <> PyNone -> image <> None ->
   check_message sdk self sid aid message image w =
     (Raise (ValueError
        "Cannot provide both message and image - they are mutually exclusive"),
      w)) /\
  (forall e,
     exactly_one_provided message image ->
     sdk (trace w) (_client self) {| user_id := aid; session_id := sid |}
       message image = SdkRaises e ->
     let call := SdkCall (_client self)
                   {| user_id := aid; session_id := sid |} message image in
     (is_Exception e = true ->
      check_message sdk self sid aid message image w =
        (Raise (Exception "Moderation service failure (Alice)" e),
         after w [call])) /\
     (is_Exception e = false ->
      check_message sdk self sid aid message image w =
        (Raise e, after w [call]))).
Proof.
  split; [|split].
  - intros -> ->. apply check_message_neither.
  - intros Hm Hi. destruct image as [img|]; [|congruence].
    now apply check_message_both.
  - intros e Hone Hsdk call.
    rewrite (check_message_one _ _ _ _ _ _ Hone), Hsdk. cbv zeta.
    split; intros ->; reflexivity.
Qed.

(** ** The hook *)

Lemma sdk_call_count_app (t u : list (Effect ImageInput)) :
  sdk_call_count (t ++ u) = sdk_call_count t + sdk_call_count u.
Proof. unfold sdk_call_count. now rewrite filter_app, length_app. Qed.

(** When [check_message] returned [r] inside the hook, the payload was
    not [None] and the evaluator was called once, with the payload as the
    text and without an image. *)
Lemma check_message_returned self sid aid payload w r w1 :
  check_message sdk self sid aid payload None w = (Ok r, w1) ->
  payload <> PyNone /\
  sdk (trace w) (_client self) {| user_id := aid; session_id := sid |}
    payload None = SdkReturns r /\
  w1 = after w [SdkCall (_client self)
                  {| user_id := aid; session_id := sid |} payload None].
Proof.
  intros H.
  assert (Hp : payload <> PyNone).
  { intros ->. rewrite check_message_neither in H. discriminate. }
  split; [assumption|].
  rewrite check_message_one in H by (left; auto). cbv zeta in H.
  destruct (sdk _ _ _ _ _) as [r'|e]; [|discriminate].
  injection H as -> ->. auto.
Qed.

(** C1: after the moderation call returned [r]: on DETECT the hook logs
    one warning and returns CALL_NEXT; on BLOCK it logs, emits a message
    event carrying the configured [blocked_message] and returns BAIL; on
    MASK it logs, emits a message event carrying [r]'s [action_text] and
    returns BAIL; on any other action it does nothing more and returns
    CALL_NEXT. *)
Theorem check_message_compliance_by_action self ctx payload exc w r w1 :
  check_message sdk self (ctx_session_id ctx) (ctx_agent_id ctx)
    payload None w = (Ok r, w1) ->
  (action r = DETECT ->
   check_message_compliance repr_detections sdk self ctx payload exc w =
     (Ok CALL_NEXT,
      after w1 [LogWarning (detected_warning repr_detections payload r)])) /\
  (action r = BLOCK ->
   check_message_compliance repr_detections sdk self ctx payload exc w =
     (Ok BAIL,
      after w1 [LogWarning (prevented_warning payload);
                EmitMessage (ctx_trace_id ctx)
                  (agent_message ctx (blocked_message self))])) /\
  (action r = MASK ->
   check_message_compliance repr_detections sdk self ctx payload exc w =
     (Ok BAIL,
      after w1 [LogWarning (prevented_warning payload);
                EmitMessage (ctx_trace_id ctx)
                  (agent_message ctx (action_text r))])) /\
  (action r <> DETECT -> action r <> BLOCK -> action r <> MASK ->
   check_message_compliance repr_detections sdk self ctx payload exc w =
     (Ok CALL_NEXT, w1)).
Proof.
  intros H.
  repeat split; intros Ha; try intros Hb Hm;
    unfold check_message_compliance; unfold bind at 1; rewrite H;
    cbv beta iota zeta.
  - rewrite Ha. reflexivity.
  - rewrite Ha. unfold after, bind, perform, ret. simpl.
    now rewrite <- app_assoc.
  - rewrite Ha. unfold after, bind, perform, ret. simpl.
    now rewrite <- app_assoc.
  - destruct (action r); try congruence. reflexivity.
Qed.

Lemma after_nil w : after w [] = w.
Proof. destruct w. unfold after. simpl. now rewrite app_nil_r. Qed.

Lemma after_after w es fs : after (after w es) fs = after w (es ++ fs).
Proof. unfold after. simpl. now rewrite app_assoc. Qed.

Lemma check_message_compliance_None self ctx exc w :
  check_message_compliance repr_detections sdk self ctx PyNone exc w =
    (Raise (ValueError "Either message or image must be provided"), w).
Proof. reflexivity. Qed.

(** One run of the hook on a payload, by what the service does. *)
Lemma check_message_compliance_run self ctx payload exc w :
  payload <> PyNone ->
  let call := SdkCall (_client self)
                {| user_id := ctx_agent_id ctx;
                   session_id := ctx_session_id ctx |} payload None in
  check_message_compliance repr_detections sdk self ctx payload exc w =
    match sdk (trace w) (_client self)
            {| user_id := ctx_agent_id ctx;
               session_id := ctx_session_id ctx |} payload None with
    | SdkReturns r =>
        match action r with
        | DETECT =>
            (Ok CALL_NEXT,
             after w [call;
                      LogWarning (detected_warning repr_detections payload r)])
        | BLOCK =>
            (Ok BAIL,
             after w [call; LogWarning (prevented_warning payload);
                      EmitMessage (ctx_trace_id ctx)
                        (agent_message ctx (blocked_message self))])
        | MASK =>
            (Ok BAIL,
             after w [call; LogWarning (prevented_warning payload);
                      EmitMessage (ctx_trace_id ctx)
                        (agent_message ctx (action_text r))])
        | ALLOW => (Ok CALL_NEXT, after w [call])
        end
    | SdkRaises e =>
        (Raise (if is_Exception e then Exception moderation_failure e else e),
         after w [call])
    end.
Proof.
  intros Hp call.
  pose proof (check_message_one self (ctx_session_id ctx) (ctx_agent_id ctx)
                payload None w (or_introl (conj Hp eq_refl))) as Hcm.
  cbv zeta in Hcm. fold call in Hcm.
  unfold check_message_compliance. unfold bind at 1. rewrite Hcm.
  destruct (sdk _ _ _ _ _) as [r|e]; [|reflexivity].
  cbv beta iota zeta.
  destruct (action r); simpl; unfold after, bind, perform, ret; simpl;
    rewrite <- ?app_assoc; reflexivity.
Qed.

(** With a payload, the hook starts with the evaluator call and makes no
    other. *)
Lemma check_message_compliance_calls_first self ctx payload exc w :
  payload <> PyNone ->
  exists res rest,
    check_message_compliance repr_detections sdk self ctx payload exc w =
      (res,
       after w (SdkCall (_client self)
                  {| user_id := ctx_agent_id ctx;
                     session_id := ctx_session_id ctx |} payload None
                :: rest)) /\
    Forall (fun e => is_SdkCall e = false) rest.
Proof.
  intros Hp.
  rewrite (check_message_compliance_run self ctx payload exc w Hp).
  cbv zeta.
  destruct (sdk _ _ _ _ _) as [r|e]; [destruct (action r)|];
    eexists _, _; (split; [reflexivity|]); repeat constructor.
Qed.

(** C6, as the code has it: one invocation of the hook calls the
    evaluator once when the payload is not [None] and not at all when it
    is [None]; whatever the response, it never calls it a second time. *)
Theorem check_message_compliance_call_count self ctx payload exc w :
  sdk_call_count
    (trace (snd (check_message_compliance repr_detections sdk self ctx
                   payload exc w)))
  = sdk_call_count (trace w) + (if is_None payload then 0 else 1).
Proof.
  destruct (decide (payload = PyNone)) as [-> | Hp].
  - rewrite check_message_compliance_None. simpl. lia.
  - destruct (check_message_compliance_calls_first self ctx payload exc w Hp)
      as (res & rest & -> & Hrest).
    simpl. rewrite sdk_call_count_app.
    replace (is_None payload) with false by (now destruct payload).
    f_equal. unfold sdk_call_count. simpl.
    f_equal.
    induction Hrest as [|e rest He _ IH]; [reflexivity|].
    rewrite filter_cons, decide_False by congruence. exact IH.
Qed.

(** C8: with a payload, the hook always calls the evaluator first, with
    the payload as the text and without an image, and makes no other
    call; every evaluator call it makes, on any path, carries the payload
    and no image; with the payload [None] it therefore raises the
    neither-message-nor-image [ValueError] and does nothing else. *)
Theorem check_message_compliance_forwards_payload self ctx payload exc w :
  (payload <> PyNone ->
   exists res rest,
     check_message_compliance repr_detections sdk self ctx payload exc w =
       (res,
        after w (SdkCall (_client self)
                   {| user_id := ctx_agent_id ctx;
                      session_id := ctx_session_id ctx |} payload None
                 :: rest)) /\
     Forall (fun e => is_SdkCall e = false) rest) /\
  (exists rest,
     snd (check_message_compliance repr_detections sdk self ctx payload exc w)
       = after w rest /\
     forall client context response image,
       SdkCall client context response image ∈ rest ->
       response = payload /\ image = None) /\
  check_message_compliance repr_detections sdk self ctx PyNone exc w =
    (Raise (ValueError "Either message or image must be provided"), w).
Proof.
  split; [apply check_message_compliance_calls_first|].
  split; [|apply check_message_compliance_None].
  destruct (decide (payload = PyNone)) as [-> | Hp].
  - exists []. rewrite check_message_compliance_None, after_nil.
    split; [reflexivity|]. intros ? ? ? ? Hin. inversion Hin.
  - destruct (check_message_compliance_calls_first self ctx payload exc w Hp)
      as (res & rest & -> & Hrest).
    eexists. split; [reflexivity|].
    intros client context response image Hin.
    apply elem_of_cons in Hin as [Heq | Hin].
    + now injection Heq as _ _ -> ->.
    + rewrite Forall_forall in Hrest. apply Hrest in Hin. discriminate.
Qed.

(** C9: the hook does not look at [exc]: two invocations that differ
    only in [exc] return the same result and leave the same world (the
    same calls, log lines and events). *)
Theorem check_message_compliance_ignores_exc self ctx payload w
    (exc1 exc2 : option PyExn) :
  check_message_compliance repr_detections sdk self ctx payload exc1 w =
  check_message_compliance repr_detections sdk self ctx payload exc2 w.
Proof. reflexivity. Qed.

(** ** [configure_container] *)

Lemma bind_Ok {A B : Type} (m : M ImageInput A) (k : A -> M ImageInput B)
    w a w' :
  m w = (Ok a, w') -> bind ImageInput m k w = k a w'.
Proof. intros H. unfold bind. now rewrite H. Qed.

Lemma container_getitem_bound (c : positive) (k : string) w
    (bindings : gmap string Value) (v : Value) :
  heap w !! c = Some (ObjContainer bindings) ->
  bindings !! k = Some v ->
  container_getitem c k w = (Ok v, w).
Proof. intros Hc Hk. unfold container_getitem. now rewrite Hc, Hk. Qed.

Lemma container_setitem_bound (c : positive) (k : string) (v : Value) w
    (bindings : gmap string Value) :
  heap w !! c = Some (ObjContainer bindings) ->
  container_setitem c k v w =
    (Ok tt,
     {| trace := trace w;
        heap := <[c := ObjContainer (<[k := v]> bindings)]> (heap w) |}).
Proof. intros Hc. unfold container_setitem. now rewrite Hc. Qed.

Lemma on_message_generated_append_ref (l : positive) (h : Hook) w
    (hooks : EngineHooks) :
  heap w !! l = Some (ObjEngineHooks hooks) ->
  on_message_generated_append (VRef l) h w =
    (Ok tt,
     {| trace := trace w;
        heap := <[l := ObjEngineHooks
                          {| on_message_generated :=
                               on_message_generated hooks ++ [h];
                             other_hook_lists := other_hook_lists hooks |}]>
                  (heap w) |}).
Proof. intros Hl. unfold on_message_generated_append. now rewrite Hl. Qed.

(** C7: on a container that binds the NLP service, the logger, the meter
    and the engine hooks, [configure_container] returns the container it
    was given; afterwards the NLP service key is bound to the wrapper around
    the original service, the Alice key to the instance, the hook
    [check_message_compliance] is the new last entry of
    [on_message_generated], and every other binding, every other hook
    list and every other object is as before. *)
Theorem configure_container_frame self (container hooks_ref : positive) w
    (bindings : gmap string Value) (nlp logger meter : Value)
    (hooks : EngineHooks) :
  heap w !! container = Some (ObjContainer bindings) ->
  bindings !! NLPService_key = Some nlp ->
  bindings !! Logger_key = Some logger ->
  bindings !! Meter_key = Some meter ->
  bindings !! EngineHooks_key = Some (VRef hooks_ref) ->
  heap w !! hooks_ref = Some (ObjEngineHooks hooks) ->
  exists w' bindings',
    configure_container self container w = (Ok container, w') /\
    trace w' = trace w /\
    heap w' !! container = Some (ObjContainer bindings') /\
    bindings' !! NLPService_key =
      Some (VAliceNLPServiceWrapper nlp (_client self) logger meter) /\
    bindings' !! Alice_key = Some (VAlice self) /\
    (forall k, k <> NLPService_key -> k <> Alice_key ->
               bindings' !! k = bindings !! k) /\
    heap w' !! hooks_ref =
      Some (ObjEngineHooks
              {| on_message_generated :=
                   on_message_generated hooks
                     ++ [check_message_compliance_of self];
                 other_hook_lists := other_hook_lists hooks |}) /\
    (forall l, l <> container -> l <> hooks_ref ->
               heap w' !! l = heap w !! l).
Proof.
  intros Hc Hnlp Hlog Hmet Hhk Hh.
  assert (Hne : container <> hooks_ref) by congruence.
  unfold configure_container.
  rewrite (bind_Ok _ _ _ _ _ (container_getitem_bound _ _ _ _ _ Hc Hnlp)).
  rewrite (bind_Ok _ _ _ _ _ (container_getitem_bound _ _ _ _ _ Hc Hlog)).
  rewrite (bind_Ok _ _ _ _ _ (container_getitem_bound _ _ _ _ _ Hc Hmet)).
  rewrite (bind_Ok _ _ _ _ _ (container_setitem_bound _ _ _ _ _ Hc)).
  erewrite (bind_Ok (bind _ _ _)); cycle 1.
  { erewrite bind_Ok; cycle 1.
    - eapply container_getitem_bound; simpl.
      + apply lookup_insert_eq.
      + rewrite lookup_insert_ne by done. exact Hhk.
    - apply on_message_generated_append_ref. simpl.
      rewrite lookup_insert_ne by done. exact Hh. }
  erewrite bind_Ok; cycle 1.
  { apply container_setitem_bound. simpl.
    rewrite lookup_insert_ne by done. apply lookup_insert_eq. }
  unfold ret.
  eexists _, _. split; [reflexivity|]. simpl.
  split; [reflexivity|].
  split; [apply lookup_insert_eq|].
  split; [rewrite lookup_insert_ne by done; apply lookup_insert_eq|].
  split; [apply lookup_insert_eq|].
  split.
  - intros k Hk1 Hk2. now rewrite !lookup_insert_ne by congruence.
  - split.
    + rewrite lookup_insert_ne by done. apply lookup_insert_eq.
    + intros l Hl1 Hl2. now rewrite !lookup_insert_ne by congruence.
Qed.

(** ** Further properties of [check_message] and of the hook *)

(** [check_message] returns a response exactly when one of [message] and
    [image] was provided and the evaluator returned that response; the
    response is handed back unchanged, and the one call made carries the
    agent as [user_id], the session as [session_id], and the message and
    image as they were given. *)
Theorem check_message_returns_iff self sid aid message image w r w' :
  check_message sdk self sid aid message image w = (Ok r, w') <->
  exactly_one_provided message image /\
  sdk (trace w) (_client self) {| user_id := aid; session_id := sid |}
    message image = SdkReturns r /\
  w' = after w [SdkCall (_client self)
                  {| user_id := aid; session_id := sid |} message image].
Proof.
  split.
  - intros H.
    destruct (provided_cases message image) as [Hone | [[-> ->] | [Hm Hi]]].
    + rewrite (check_message_one _ _ _ _ _ _ Hone) in H. cbv zeta in H.
      destruct (sdk _ _ _ _ _) as [r'|e]; [|discriminate].
      injection H as -> ->. auto.
    + rewrite check_message_neither in H. discriminate.
    + destruct image as [img|]; [|congruence].
      rewrite check_message_both in H by assumption. discriminate.
  - intros (Hone & Hsdk & ->).
    rewrite (check_message_one _ _ _ _ _ _ Hone). cbv zeta.
    now rewrite Hsdk.
Qed.

Lemma emit_count_app (t u : list (Effect ImageInput)) :
  emit_count (t ++ u) = emit_count t + emit_count u.
Proof. unfold emit_count. now rewrite filter_app, length_app. Qed.

Lemma warning_count_app (t u : list (Effect ImageInput)) :
  warning_count (t ++ u) = warning_count t + warning_count u.
Proof. unfold warning_count. now rewrite filter_app, length_app. Qed.

(** Splits a run of the hook into its paths: no payload, the service
    raising, and the four verdicts. *)
Ltac hook_paths self ctx payload exc w :=
  let Hp := fresh "Hp" in
  destruct (decide (payload = PyNone)) as [-> | Hp];
  [ rewrite check_message_compliance_None
  | rewrite (check_message_compliance_run self ctx payload exc w Hp);
    cbv zeta;
    let r := fresh "r" in
    let e := fresh "e" in
    destruct (sdk (trace w) (_client self)
                {| user_id := ctx_agent_id ctx;
                   session_id := ctx_session_id ctx |} payload None)
      as [r | e];
    [ destruct (action r) eqn:?Hact | ] ].

(** An invocation of the hook that raises has logged no warning and
    emitted no message event, and has left the heap alone: a failure of
    the validation or of the service never produces half a reaction. *)
Theorem check_message_compliance_raise_is_silent self ctx payload exc w e :
  fst (check_message_compliance repr_detections sdk self ctx payload exc w)
    = Raise e ->
  let w' :=
    snd (check_message_compliance repr_detections sdk self ctx payload exc w)
  in
  warning_count (trace w') = warning_count (trace w) /\
  emit_count (trace w') = emit_count (trace w) /\
  heap w' = heap w.
Proof.
  hook_paths self ctx payload exc w; simpl; intros Hraise;
    try discriminate; auto.
  rewrite warning_count_app, emit_count_app.
  unfold warning_count, emit_count. simpl. auto with lia.
Qed.

(** The hook emits one message event exactly when it returns BAIL, and
    none on every other path: a suppressed message is always replaced,
    and a message that goes on is never accompanied by a second one. *)
Theorem check_message_compliance_emits_iff_BAIL self ctx payload exc w :
  emit_count
    (trace (snd (check_message_compliance repr_detections sdk self ctx
                   payload exc w)))
  = emit_count (trace w)
    + (if is_BAIL (fst (check_message_compliance repr_detections sdk self
                          ctx payload exc w))
       then 1 else 0).
Proof.
  hook_paths self ctx payload exc w; simpl;
    rewrite ?emit_count_app; unfold emit_count; simpl; lia.
Qed.

(** The hook returns BAIL exactly when there was a payload and the
    service answered BLOCK or MASK, and CALL_NEXT exactly when there was a
    payload and the service answered anything else. *)
Theorem check_message_compliance_result_iff self ctx payload exc w :
  let answer :=
    sdk (trace w) (_client self)
      {| user_id := ctx_agent_id ctx; session_id := ctx_session_id ctx |}
      payload None in
  (fst (check_message_compliance repr_detections sdk self ctx payload exc w)
     = Ok BAIL <->
   payload <> PyNone /\
   exists r, answer = SdkReturns r /\ (action r = BLOCK \/ action r = MASK))
  /\
  (fst (check_message_compliance repr_detections sdk self ctx payload exc w)
     = Ok CALL_NEXT <->
   payload <> PyNone /\
   exists r, answer = SdkReturns r /\ action r <> BLOCK /\ action r <> MASK).
Proof.
  intros answer. subst answer.
  hook_paths self ctx payload exc w; simpl;
    (split;
     (split;
      [ intros H; try discriminate;
        (split; [assumption|]; eexists; split; [reflexivity|];
         rewrite Hact; intuition congruence)
      | intros (Hp' & r' & Hr & Ha);
        try congruence;
        try (injection Hr as <-; rewrite Hact in Ha;
             intuition congruence) ])).
Qed.

(** Each invocation of the hook logs at most one warning, and an
    invocation that returns BAIL has logged exactly one. *)
Theorem check_message_compliance_warns self ctx payload exc w :
  let res :=
    fst (check_message_compliance repr_detections sdk self ctx payload exc w)
  in
  let w' :=
    snd (check_message_compliance repr_detections sdk self ctx payload exc w)
  in
  warning_count (trace w') <= warning_count (trace w) + 1 /\
  (res = Ok BAIL -> warning_count (trace w') = warning_count (trace w) + 1).
Proof.
  hook_paths self ctx payload exc w; simpl;
    rewrite ?warning_count_app; unfold warning_count; simpl;
    (split; [lia | intros H; try discriminate; lia]).
Qed.

(** ** Further properties of [configure_container] *)

(** [configure_container] reads the three services before it writes: when
    the container lacks the NLP service, the logger or the meter, the
    call raises for the first key that is missing and the world is as it
    was. *)
Theorem configure_container_missing_service self (container : positive) w
    (bindings : gmap string Value) :
  heap w !! container = Some (ObjContainer bindings) ->
  bindings !! NLPService_key = None \/
  bindings !! Logger_key = None \/
  bindings !! Meter_key = None ->
  exists key,
    configure_container self container w = (Raise (UnresolvableType key), w)
    /\ bindings !! key = None
    /\ (key = NLPService_key \/ key = Logger_key \/ key = Meter_key).
Proof.
  intros Hc Hmissing.
  unfold configure_container, bind at 1. unfold container_getitem at 1.
  rewrite Hc.
  destruct (bindings !! NLPService_key) as [nlp|] eqn:Hnlp; [|eauto 6].
  unfold bind at 1. unfold container_getitem at 1. rewrite Hc.
  destruct (bindings !! Logger_key) as [logger|] eqn:Hlog; [|eauto 6].
  unfold bind at 1. unfold container_getitem at 1. rewrite Hc.
  destruct (bindings !! Meter_key) as [meter|] eqn:Hmet; [|eauto 7].
  destruct Hmissing as [H | [H | H]]; discriminate.
Qed.

(** After the three services were read, the rest of
    [configure_container] runs in the world where the NLP service is
    rebound. *)
Lemma configure_container_rebinds_first self (container : positive) w
    (bindings : gmap string Value) (nlp logger meter : Value) :
  heap w !! container = Some (ObjContainer bindings) ->
  bindings !! NLPService_key = Some nlp ->
  bindings !! Logger_key = Some logger ->
  bindings !! Meter_key = Some meter ->
  configure_container self container w =
    bind ImageInput
      (bind ImageInput (container_getitem container EngineHooks_key)
         (fun hooks =>
            on_message_generated_append hooks
              (check_message_compliance_of self)))
      (fun _ =>
         bind ImageInput
           (container_setitem container Alice_key (VAlice self))
           (fun _ => ret ImageInput container))
      (rebound self container bindings nlp logger meter w).
Proof.
  intros Hc Hnlp Hlog Hmet.
  unfold configure_container.
  rewrite (bind_Ok _ _ _ _ _ (container_getitem_bound _ _ _ _ _ Hc Hnlp)).
  rewrite (bind_Ok _ _ _ _ _ (container_getitem_bound _ _ _ _ _ Hc Hlog)).
  rewrite (bind_Ok _ _ _ _ _ (container_getitem_bound _ _ _ _ _ Hc Hmet)).
  now rewrite (bind_Ok _ _ _ _ _ (container_setitem_bound _ _ _ _ _ Hc)).
Qed.

(** The three ways [configure_container] can end: before any write, with
    the world as it was; after the NLP service was rebound, because the
    engine hooks cannot be reached; or with everything in place. *)
Lemma configure_container_cases self (container : positive) w :
  (exists e,
     configure_container self container w = (Raise e, w) /\
     forall bindings,
       heap w !! container = Some (ObjContainer bindings) ->
       bindings !! NLPService_key = None \/
       bindings !! Logger_key = None \/
       bindings !! Meter_key = None) \/
  (exists bindings nlp logger meter,
     heap w !! container = Some (ObjContainer bindings) /\
     bindings !! NLPService_key = Some nlp /\
     bindings !! Logger_key = Some logger /\
     bindings !! Meter_key = Some meter /\
     ((~ (exists l hooks, hooks_reachable bindings w l hooks) /\
       configure_container self container w =
         (Raise (hooks_failure bindings),
          rebound self container bindings nlp logger meter w)) \/
      (exists l hooks,
         hooks_reachable bindings w l hooks /\
         configure_container self container w =
           (Ok container,
            configured self container l bindings nlp logger meter hooks
              w)))).
Proof.
  destruct (heap w !! container) as [[bindings|hooks]|] eqn:Hc.
  2,3: (left; eexists; split;
        [ unfold configure_container, bind, container_getitem;
          now rewrite Hc
        | intros ? [=] ]).
  destruct (bindings !! NLPService_key) as [nlp|] eqn:Hnlp; cycle 1.
  { left. eexists. split.
    - unfold configure_container, bind, container_getitem.
      now rewrite Hc, Hnlp.
    - intros ? [= <-]. auto. }
  destruct (bindings !! Logger_key) as [logger|] eqn:Hlog; cycle 1.
  { left. eexists. split.
    - unfold configure_container.
      rewrite (bind_Ok _ _ _ _ _
                 (container_getitem_bound _ _ _ _ _ Hc Hnlp)).
      unfold bind, container_getitem. now rewrite Hc, Hlog.
    - intros ? [= <-]. auto. }
  destruct (bindings !! Meter_key) as [meter|] eqn:Hmet; cycle 1.
  { left. eexists. split.
    - unfold configure_container.
      rewrite (bind_Ok _ _ _ _ _
                 (container_getitem_bound _ _ _ _ _ Hc Hnlp)).
      rewrite (bind_Ok _ _ _ _ _
                 (container_getitem_bound _ _ _ _ _ Hc Hlog)).
      unfold bind, container_getitem. now rewrite Hc, Hmet.
    - intros ? [= <-]. auto. }
  right. exists bindings, nlp, logger, meter.
  do 4 (split; [first [reflexivity | assumption]|]).
  rewrite (configure_container_rebinds_first self container w bindings
             nlp logger meter Hc Hnlp Hlog Hmet).
  set (w1 := rebound self container bindings nlp logger meter w).
  unfold hooks_failure, hooks_reachable.
  destruct (bindings !! EngineHooks_key) as [target|] eqn:Hhk; cycle 1.
  { left. split; [intros (l & hooks & [=] & _)|].
    unfold bind, container_getitem. simpl. rewrite lookup_insert_eq.
    rewrite (lookup_insert_ne _ NLPService_key EngineHooks_key) by done.
    now rewrite Hhk. }
  assert (Hget : container_getitem container EngineHooks_key w1
                 = (Ok target, w1)).
  { eapply container_getitem_bound; simpl.
    - apply lookup_insert_eq.
    - rewrite lookup_insert_ne by done. exact Hhk. }
  unfold bind at 1. rewrite (bind_Ok _ _ _ _ _ Hget).
  destruct target as [tag | l | orig client lg mt | a];
    try (left; split; [intros (l & hooks & [=] & _) | reflexivity]).
  destruct (decide (l = container)) as [-> | Hl].
  { left. split; [intros (l & hooks & [= <-] & Hh); congruence|].
    unfold on_message_generated_append. simpl.
    now rewrite lookup_insert_eq. }
  destruct (heap w !! l) as [[bs|hooks]|] eqn:Hh;
    try (left; split; [intros (l' & hooks' & [= <-] & Hh'); congruence|];
         unfold on_message_generated_append; simpl;
         rewrite lookup_insert_ne by done; now rewrite Hh).
  right. exists l, hooks. split; [auto|].
  unfold bind at 1. rewrite (bind_Ok _ _ _ _ _ Hget).
  rewrite (on_message_generated_append_ref l _ w1 hooks); cycle 1.
  { simpl. rewrite lookup_insert_ne by done. exact Hh. }
  erewrite bind_Ok; cycle 1.
  { apply container_setitem_bound. simpl.
    rewrite lookup_insert_ne by done. apply lookup_insert_eq. }
  reflexivity.
Qed.

(** [configure_container] returns exactly when the container binds the
    NLP service, the logger and the meter and its engine hooks can be
    reached; what it returns is then the container it was given. *)
Theorem configure_container_returns_iff self (container c' : positive) w :
  (exists w', configure_container self container w = (Ok c', w')) <->
  c' = container /\
  exists bindings nlp logger meter l hooks,
    heap w !! container = Some (ObjContainer bindings) /\
    bindings !! NLPService_key = Some nlp /\
    bindings !! Logger_key = Some logger /\
    bindings !! Meter_key = Some meter /\
    bindings !! EngineHooks_key = Some (VRef l) /\
    heap w !! l = Some (ObjEngineHooks hooks).
Proof.
  destruct (configure_container_cases self container w)
    as [(e & Hrun & Hmissing)
       | (bindings & nlp & logger & meter & Hc & Hnlp & Hlog & Hmet
          & [[Hno Hrun] | (l & hooks & [Hhk Hh] & Hrun)])];
    rewrite Hrun.
  - split; [intros [w' [=]]|].
    intros (_ & bs & ? & ? & ? & ? & ? & Hc' & Hnlp & Hlog & Hmet & _).
    destruct (Hmissing _ Hc') as [H | [H | H]]; congruence.
  - split; [intros [w' [=]]|].
    intros (_ & bs & ? & ? & ? & l & hooks & Hc' & _ & _ & _ & Hhk & Hh).
    exfalso. apply Hno. exists l, hooks.
    rewrite Hc in Hc'. injection Hc' as <-. split; assumption.
  - split.
    + intros [w' [= <- _]]. split; [reflexivity|].
      exists bindings, nlp, logger, meter, l, hooks. auto 10.
    + intros [-> _]. eauto.
Qed.

(** The NLP service is rebound before the engine hooks are looked up:
    when the container binds the three services but its engine hooks
    cannot be reached (the key is unbound, or bound to something that is
    not an engine-hooks object), the call raises and leaves the container
    with the wrapper installed, without the hook and without the Alice
    binding. *)
Theorem configure_container_unreachable_hooks self (container : positive) w
    (bindings : gmap string Value) (nlp logger meter : Value) :
  heap w !! container = Some (ObjContainer bindings) ->
  bindings !! NLPService_key = Some nlp ->
  bindings !! Logger_key = Some logger ->
  bindings !! Meter_key = Some meter ->
  ~ (exists l hooks,
       bindings !! EngineHooks_key = Some (VRef l) /\
       heap w !! l = Some (ObjEngineHooks hooks)) ->
  configure_container self container w =
    (Raise (match bindings !! EngineHooks_key with
            | None => UnresolvableType EngineHooks_key
            | Some _ => AttributeError "on_message_generated"
            end),
     {| trace := trace w;
        heap :=
          <[container :=
              ObjContainer
                (<[NLPService_key :=
                     VAliceNLPServiceWrapper nlp (_client self) logger meter]>
                   bindings)]> (heap w) |}).
Proof.
  intros Hc Hnlp Hlog Hmet Hno.
  destruct (configure_container_cases self container w)
    as [(e & _ & Hmissing)
       | (bs & nlp' & logger' & meter' & Hc' & Hnlp' & Hlog' & Hmet'
          & [[_ Hrun] | (l & hooks & Hreach & _)])].
  - destruct (Hmissing _ Hc) as [H | [H | H]]; congruence.
  - rewrite Hc in Hc'. injection Hc' as <-.
    rewrite Hnlp in Hnlp'. rewrite Hlog in Hlog'. rewrite Hmet in Hmet'.
    injection Hnlp' as <-. injection Hlog' as <-. injection Hmet' as <-.
    exact Hrun.
  - rewrite Hc in Hc'. injection Hc' as <-.
    exfalso. apply Hno. exists l, hooks. exact Hreach.
Qed.

(** On every path, failing or not, [configure_container] adds nothing
    to the trace (no evaluator call, no warning, no event), keeps every
    binding of the container other than the NLP service and Alice keys,
    and leaves alone every object other than the container and the
    engine hooks the container refers to. *)
Theorem configure_container_touches_only self (container : positive) w :
  let w' := snd (configure_container self container w) in
  trace w' = trace w /\
  (forall bindings,
     heap w !! container = Some (ObjContainer bindings) ->
     exists bindings',
       heap w' !! container = Some (ObjContainer bindings') /\
       forall k, k <> NLPService_key -> k <> Alice_key ->
                 bindings' !! k = bindings !! k) /\
  (forall l,
     l <> container ->
     (forall bindings,
        heap w !! container = Some (ObjContainer bindings) ->
        bindings !! EngineHooks_key <> Some (VRef l)) ->
     heap w' !! l = heap w !! l).
Proof.
  intros w'. subst w'.
  destruct (configure_container_cases self container w)
    as [(e & Hrun & _)
       | (bindings & nlp & logger & meter & Hc & Hnlp & Hlog & Hmet
          & [[_ Hrun] | (l & hooks & [Hhk Hh] & Hrun)])];
    rewrite Hrun; simpl; (split; [reflexivity|]); split.
  - intros bs Hbs. exists bs. auto.
  - reflexivity.
  - intros bs Hbs. rewrite Hc in Hbs. injection Hbs as <-.
    eexists. split; [apply lookup_insert_eq|].
    intros k Hk _. now rewrite lookup_insert_ne by congruence.
  - intros l Hl _. now rewrite lookup_insert_ne by congruence.
  - intros bs Hbs. rewrite Hc in Hbs. injection Hbs as <-.
    eexists. split; [apply lookup_insert_eq|].
    intros k Hk1 Hk2. now rewrite !lookup_insert_ne by congruence.
  - intros l' Hl' Hnot.
    assert (l' <> l) by (intros ->; now apply (Hnot bindings)).
    now rewrite !lookup_insert_ne by congruence.
Qed.

(** The successful run, with the world it ends in. *)
Lemma configure_container_run self (container l : positive) w
    (bindings : gmap string Value) (nlp logger meter : Value)
    (hooks : EngineHooks) :
  heap w !! container = Some (ObjContainer bindings) ->
  bindings !! NLPService_key = Some nlp ->
  bindings !! Logger_key = Some logger ->
  bindings !! Meter_key = Some meter ->
  bindings !! EngineHooks_key = Some (VRef l) ->
  heap w !! l = Some (ObjEngineHooks hooks) ->
  configure_container self container w =
    (Ok container,
     configured self container l bindings nlp logger meter hooks w).
Proof.
  intros Hc Hnlp Hlog Hmet Hhk Hh.
  destruct (configure_container_cases self container w)
    as [(e & _ & Hmissing)
       | (bs & nlp' & logger' & meter' & Hc' & Hnlp' & Hlog' & Hmet'
          & [[Hno _] | (l' & hooks' & [Hhk' Hh'] & Hrun)])].
  - destruct (Hmissing _ Hc) as [H | [H | H]]; congruence.
  - rewrite Hc in Hc'. injection Hc' as <-.
    exfalso. apply Hno. exists l, hooks. split; assumption.
  - rewrite Hc in Hc'. injection Hc' as <-.
    rewrite Hnlp in Hnlp'. rewrite Hlog in Hlog'. rewrite Hmet in Hmet'.
    rewrite Hhk in Hhk'.
    injection Hnlp' as <-. injection Hlog' as <-. injection Hmet' as <-.
    injection Hhk' as <-. rewrite Hh in Hh'. injection Hh' as <-.
    exact Hrun.
Qed.

Lemma configured_container self (container l : positive) w
    (bindings : gmap string Value) (nlp logger meter : Value)
    (hooks : EngineHooks) :
  heap (configured self container l bindings nlp logger meter hooks w)
    !! container
  = Some (ObjContainer
            (<[Alice_key := VAlice self]>
               (<[NLPService_key :=
                    wrapped_nlp_service self nlp logger meter]> bindings))).
Proof. simpl. apply lookup_insert_eq. Qed.

Lemma configured_hooks self (container l : positive) w
    (bindings : gmap string Value) (nlp logger meter : Value)
    (hooks : EngineHooks) :
  l <> container ->
  heap (configured self container l bindings nlp logger meter hooks w) !! l
  = Some (ObjEngineHooks
            {| on_message_generated :=
                 on_message_generated hooks
                   ++ [check_message_compliance_of self];
               other_hook_lists := other_hook_lists hooks |}).
Proof.
  intros Hl. simpl. rewrite lookup_insert_ne by congruence.
  apply lookup_insert_eq.
Qed.

(** After a successful [configure_container], [container[Alice]] is the
    instance, [container[NLPService]] is the wrapper around the former
    service, and every other key resolves as it did before. *)
Theorem configure_container_then_getitem self (container l : positive) w
    (bindings : gmap string Value) (nlp logger meter : Value)
    (hooks : EngineHooks) :
  heap w !! container = Some (ObjContainer bindings) ->
  bindings !! NLPService_key = Some nlp ->
  bindings !! Logger_key = Some logger ->
  bindings !! Meter_key = Some meter ->
  bindings !! EngineHooks_key = Some (VRef l) ->
  heap w !! l = Some (ObjEngineHooks hooks) ->
  let w' := snd (configure_container self container w) in
  container_getitem container Alice_key w' = (Ok (VAlice self), w') /\
  container_getitem container NLPService_key w' =
    (Ok (VAliceNLPServiceWrapper nlp (_client self) logger meter), w') /\
  (forall k, k <> Alice_key -> k <> NLPService_key ->
             fst (container_getitem container k w')
             = fst (container_getitem container k w)).
Proof.
  intros Hc Hnlp Hlog Hmet Hhk Hh w'. subst w'.
  rewrite (configure_container_run self container l w bindings nlp logger
             meter hooks Hc Hnlp Hlog Hmet Hhk Hh).
  cbn [snd].
  pose proof (configured_container self container l w bindings nlp logger
                meter hooks) as Hc'.
  split; [|split].
  - eapply container_getitem_bound; [exact Hc'|]. apply lookup_insert_eq.
  - eapply container_getitem_bound; [exact Hc'|].
    rewrite lookup_insert_ne by done. apply lookup_insert_eq.
  - intros k Hk1 Hk2. unfold container_getitem. rewrite Hc', Hc.
    rewrite !lookup_insert_ne by congruence.
    now destruct (bindings !! k).
Qed.

(** [configure_container] is not idempotent: run twice on the same
    container it succeeds twice, wraps the wrapper once more and leaves
    the hook registered twice, so that each generated message would be
    checked twice. *)
Theorem configure_container_twice self (container l : positive) w
    (bindings : gmap string Value) (nlp logger meter : Value)
    (hooks : EngineHooks) :
  heap w !! container = Some (ObjContainer bindings) ->
  bindings !! NLPService_key = Some nlp ->
  bindings !! Logger_key = Some logger ->
  bindings !! Meter_key = Some meter ->
  bindings !! EngineHooks_key = Some (VRef l) ->
  heap w !! l = Some (ObjEngineHooks hooks) ->
  exists w2 bindings2,
    bind ImageInput (configure_container self container)
      (fun c1 => configure_container self c1) w = (Ok container, w2) /\
    trace w2 = trace w /\
    heap w2 !! container = Some (ObjContainer bindings2) /\
    bindings2 !! NLPService_key =
      Some (VAliceNLPServiceWrapper
              (VAliceNLPServiceWrapper nlp (_client self) logger meter)
              (_client self) logger meter) /\
    bindings2 !! Alice_key = Some (VAlice self) /\
    heap w2 !! l =
      Some (ObjEngineHooks
              {| on_message_generated :=
                   on_message_generated hooks
                     ++ [check_message_compliance_of self;
                         check_message_compliance_of self];
                 other_hook_lists := other_hook_lists hooks |}).
Proof.
  intros Hc Hnlp Hlog Hmet Hhk Hh.
  assert (Hl : l <> container) by congruence.
  pose proof (configure_container_run self container l w bindings nlp logger
                meter hooks Hc Hnlp Hlog Hmet Hhk Hh) as Hrun1.
  set (w1 := configured self container l bindings nlp logger meter hooks w)
    in *.
  pose proof (configured_container self container l w bindings nlp logger
                meter hooks) as Hc1.
  pose proof (configured_hooks self container l w bindings nlp logger meter
                hooks Hl) as Hh1.
  fold w1 in Hc1, Hh1.
  epose proof (configure_container_run self container l w1 _ _ logger meter
                 _ Hc1 _ _ _ _ Hh1) as Hrun2.
  rewrite (bind_Ok _ _ _ _ _ Hrun1), Hrun2.
  eexists _, _. split; [reflexivity|].
  split; [reflexivity|].
  split; [apply configured_container|].
  split; [rewrite lookup_insert_ne by done; apply lookup_insert_eq|].
  split; [apply lookup_insert_eq|].
  rewrite configured_hooks by assumption. cbn [on_message_generated
    other_hook_lists]. now rewrite <- app_assoc.
  Unshelve.
  - rewrite lookup_insert_ne by done. apply lookup_insert_eq.
  - now rewrite !lookup_insert_ne by done.
  - now rewrite !lookup_insert_ne by done.
  - now rewrite !lookup_insert_ne by done.
Qed.

(** ** The constructor and the hook together *)

(** An instance built without a [blocked_message] parameter, in an
    environment without [ALICE_BLOCKED_MESSAGE], answers a BLOCK verdict
    by emitting the built-in text in the agent's name and bailing. *)
Theorem check_message_compliance_blocks_with_default
    (environ : gmap string string) (a n b : option string) self ctx payload
    exc w r :
  __init__ environ a n b = Ok self ->
  absent b ->
  environ !! "ALICE_BLOCKED_MESSAGE" = None ->
  payload <> PyNone ->
  sdk (trace w) (_client self)
    {| user_id := ctx_agent_id ctx; session_id := ctx_session_id ctx |}
    payload None = SdkReturns r ->
  action r = BLOCK ->
  check_message_compliance repr_detections sdk self ctx payload exc w =
    (Ok BAIL,
     after w
       [SdkCall (_client self)
          {| user_id := ctx_agent_id ctx; session_id := ctx_session_id ctx |}
          payload None;
        LogWarning (prevented_warning payload);
        EmitMessage (ctx_trace_id ctx)
          {| message :=
               Some "The generated message was blocked by guardrails.";
             participant :=
               {| participant_id := ctx_agent_id ctx;
                  display_name := ctx_agent_name ctx |} |}]).
Proof.
  intros Hinit Hb Henv Hp Hsdk Hact.
  rewrite (check_message_compliance_run self ctx payload exc w Hp).
  cbv zeta. rewrite Hsdk, Hact.
  destruct (init_Ok_fields _ _ _ _ _ Hinit) as (_ & _ & Htext & _).
  rewrite Htext, (py_or_absent _ _ Hb). unfold getenv_default.
  now rewrite Henv.
Qed.

End AdapterProperties.

(** * Concrete runs *)

(** The constructor with the key taken from the environment, the
    application name from the parameter and an empty [blocked_message]
    parameter. *)
Lemma init_env_fallback_witness :
  let environ : gmap string string :=
    {[ "ALICE_API_KEY" := "env-key"; "ALICE_BLOCKED_MESSAGE" := "Blocked." ]} in
  let self :=
    {| api_key := Some "env-key";
       app_name := Some "shop-bot";
       blocked_message := Some "Blocked.";
       _client := mkSDKClient (Some "env-key") (Some "shop-bot") |} in
  (exists made, __init__ environ None (Some "shop-bot") (Some "") = Ok made) /\
  __init__ environ None (Some "shop-bot") (Some "") = Ok self /\
  api_key self = environ !! "ALICE_API_KEY" /\
  app_name self = Some "shop-bot" /\
  blocked_message self = Some "Blocked.".
Proof.
  intros environ self.
  assert (Hrun : __init__ environ None (Some "shop-bot") (Some "") = Ok self)
    by (vm_compute; reflexivity).
  destruct (init_env_fallback environ None (Some "shop-bot") (Some ""))
    as [Hreturns Hfields].
  destruct (Hfields self Hrun) as (_ & Hkey & Hname & _ & _ & Hmsg & _).
  split.
  { apply Hreturns. intros [_ [H | H]]; vm_compute in H; discriminate. }
  split; [exact Hrun|].
  split; [apply Hkey; left; reflexivity|].
  split; [apply Hname; intros [H|H]; discriminate|].
  apply Hmsg; [right; reflexivity | vm_compute; reflexivity].
Defined.

(** No key anywhere: the constructor raises; a key in the environment: it
    returns. *)
Lemma init_raises_iff_no_api_key_witness :
  (exists msg, __init__ ∅ (Some "") (Some "shop-bot") None
               = Raise (ValueError msg)) /\
  (exists self,
     __init__ {[ "ALICE_API_KEY" := "env-key" ]} None None None = Ok self /\
     _client self = mkSDKClient (Some "env-key") None).
Proof.
  split.
  - apply (init_raises_iff_no_api_key ∅ (Some "") (Some "shop-bot") None).
    split; [right; reflexivity | left; reflexivity].
  - destruct (proj2 (init_raises_iff_no_api_key
                       {[ "ALICE_API_KEY" := "env-key" ]} None None None))
      as (self & Hrun & _ & Hkey & Hclient).
    + intros [_ [H|H]]; vm_compute in H; discriminate.
    + exists self. split; [exact Hrun|].
      rewrite Hclient, Hkey. vm_compute. reflexivity.
Defined.

Lemma init_empty_string_as_None_witness :
  let environ : gmap string string :=
    {[ "ALICE_API_KEY" := "env-key"; "ALICE_APP_NAME" := "shop-bot" ]} in
  __init__ ∅ (Some "") None None = Raise (ValueError api_key_required) /\
  (exists self,
     __init__ environ (Some "") None None = Ok self /\
     api_key self = Some "env-key") /\
  (exists self,
     __init__ environ None (Some "") None = Ok self /\
     app_name self = Some "shop-bot") /\
  (exists self,
     __init__ environ None None (Some "") = Ok self /\
     blocked_message self =
       Some "The generated message was blocked by guardrails.").
Proof.
  intros environ.
  assert (Hkey : ~ (absent None /\ absent (environ !! "ALICE_API_KEY"))).
  { intros [_ [H | H]]; vm_compute in H; discriminate. }
  split; [|split; [|split]].
  - apply (init_empty_string_as_None ∅ None None None). reflexivity.
  - destruct (init_empty_string_as_None environ None None None)
      as (_ & _ & _ & _ & Hfall & _).
    destruct (Hfall "env-key") as (self & Hrun & Hk & _);
      [vm_compute; reflexivity | discriminate |].
    exists self. split; assumption.
  - destruct (init_empty_string_as_None environ None None None)
      as (_ & _ & _ & _ & _ & Hname & _).
    destruct (Hname Hkey) as (self & Hrun & Hn & _).
    exists self. split; [exact Hrun|]. rewrite Hn. vm_compute. reflexivity.
  - destruct (init_empty_string_as_None environ None None None)
      as (_ & _ & _ & _ & _ & _ & Htext).
    destruct (Htext Hkey) as (self & Hrun & _ & Hdefault).
    exists self. split; [exact Hrun|]. apply Hdefault.
    vm_compute. reflexivity.
Defined.

(** Neither a message nor an image: [ValueError], and the world is as it
    was. *)
Lemma check_message_ValueError_iff_witness :
  (exists msg,
     fst (check_message (Sample.sdk_answering ALLOW None []) Sample.alice
            "session-7" "agent-3" PyNone None Sample.empty_world)
       = Raise (ValueError msg)) /\
  snd (check_message (Sample.sdk_answering ALLOW None []) Sample.alice
         "session-7" "agent-3" PyNone None Sample.empty_world)
    = Sample.empty_world.
Proof.
  destruct (check_message_ValueError_iff (Sample.sdk_answering ALLOW None [])
              Sample.alice "session-7" "agent-3" PyNone None
              Sample.empty_world) as [Hiff Hworld].
  split.
  - apply Hiff. left. split; reflexivity.
  - apply Hworld. left. split; reflexivity.
Defined.

(** A timeout inside the evaluator comes out wrapped. *)
Lemma check_message_failures_witness :
  let timeout := OtherException "TimeoutError" "timed out" in
  check_message (Sample.sdk_raising timeout) Sample.alice
    "session-7" "agent-3" (PyStr "hello") None Sample.empty_world =
  (Raise (Exception "Moderation service failure (Alice)" timeout),
   after Sample.empty_world
     [SdkCall (_client Sample.alice)
        {| user_id := "agent-3"; session_id := "session-7" |}
        (PyStr "hello") None]).
Proof.
  intros timeout.
  apply (proj2 (proj2 (check_message_failures (Sample.sdk_raising timeout)
                         Sample.alice "session-7" "agent-3" (PyStr "hello")
                         None Sample.empty_world)) timeout).
  - left. split; [discriminate | reflexivity].
  - reflexivity.
  - reflexivity.
Defined.

(** C3 as stated fails: a cancellation raised inside the evaluator call
    is not an instance of [Exception], and leaves [check_message] as it
    is, not wrapped. *)
Lemma check_message_wraps_every_exception_counterexample :
  Sample.sdk_raising CancelledError [] (_client Sample.alice)
    {| user_id := "agent-3"; session_id := "session-7" |} (PyStr "hello") None
    = SdkRaises CancelledError /\
  fst (check_message (Sample.sdk_raising CancelledError) Sample.alice
         "session-7" "agent-3" (PyStr "hello") None Sample.empty_world)
    = Raise CancelledError /\
  fst (check_message (Sample.sdk_raising CancelledError) Sample.alice
         "session-7" "agent-3" (PyStr "hello") None Sample.empty_world)
    <> Raise (Exception "Moderation service failure (Alice)" CancelledError).
Proof.
  split; [reflexivity|]. split; [reflexivity|]. discriminate.
Qed.

(** A MASK verdict: the replacement text of the service is emitted and
    the hook bails. *)
Lemma check_message_compliance_by_action_witness :
  let sdk := Sample.sdk_answering MASK (Some "h***o") ["pii"] in
  let call := SdkCall (_client Sample.alice)
                {| user_id := "agent-3"; session_id := "session-7" |}
                (PyStr "hello") None in
  check_message_compliance Sample.repr_detections sdk Sample.alice
    Sample.ctx (PyStr "hello") None Sample.empty_world =
  (Ok BAIL,
   after (after Sample.empty_world [call])
     [LogWarning "Prevented sending a non-compliant message: 'hello'.";
      EmitMessage "trace-42"
        {| message := Some "h***o";
           participant := {| participant_id := "agent-3";
                             display_name := "Helper" |} |}]).
Proof.
  intros sdk call.
  refine (proj1 (proj2 (proj2
    (check_message_compliance_by_action Sample.repr_detections sdk
       Sample.alice Sample.ctx (PyStr "hello") None Sample.empty_world
       (mkEvaluateMessageResponse MASK (Some "h***o") ["pii"])
       (after Sample.empty_world [call]) _))) _); reflexivity.
Defined.

(** C6 as stated fails: invoked with the payload [None], the hook raises
    before the evaluator is reached, so the evaluator is called zero
    times, not once. *)
Lemma check_message_compliance_exactly_once_counterexample :
  let w' := snd (check_message_compliance Sample.repr_detections
                   (Sample.sdk_answering ALLOW None []) Sample.alice
                   Sample.ctx PyNone None Sample.empty_world) in
  sdk_call_count (trace Sample.empty_world) = 0 /\
  sdk_call_count (trace w') = 0 /\
  sdk_call_count (trace w') <> sdk_call_count (trace Sample.empty_world) + 1.
Proof.
  split; [reflexivity|]. split; [reflexivity|]. discriminate.
Qed.

(** The sample host: container at address 1, hooks at address 2. *)
Lemma configure_container_frame_witness :
  exists w' bindings',
    configure_container Sample.alice 1%positive Sample.host_world
      = (Ok 1%positive, w') /\
    heap w' !! 1%positive = Some (ObjContainer bindings') /\
    bindings' !! NLPService_key =
      Some (VAliceNLPServiceWrapper (VHost "openai") (_client Sample.alice)
              (VHost "logger") (VHost "meter")) /\
    bindings' !! Alice_key = Some (VAlice Sample.alice) /\
    bindings' !! "SessionStore" = Some (VHost "sessions") /\
    heap w' !! 2%positive =
      Some (ObjEngineHooks
              {| on_message_generated :=
                   [HostHook "audit";
                    check_message_compliance_of Sample.alice];
                 other_hook_lists :=
                   other_hook_lists Sample.host_hooks |}).
Proof.
  destruct (configure_container_frame Sample.alice 1%positive 2%positive
              Sample.host_world Sample.host_bindings
              (VHost "openai") (VHost "logger") (VHost "meter")
              Sample.host_hooks)
    as (w' & bindings' & Hrun & _ & Hc & Hnlp & Halice & Hframe & Hhooks & _);
    try (vm_compute; reflexivity).
  exists w', bindings'.
  split; [exact Hrun|]. split; [exact Hc|]. split; [exact Hnlp|].
  split; [exact Halice|].
  split; [rewrite Hframe by discriminate; vm_compute; reflexivity|].
  exact Hhooks.
Defined.

(** [ALICE_BLOCKED_MESSAGE] set to the empty string is a value of its
    own: [os.getenv] returns it, and the default is not used. *)
Example init_blocked_message_empty_variable :
  __init__ {[ "ALICE_API_KEY" := "env-key"; "ALICE_BLOCKED_MESSAGE" := "" ]}
    None None None =
  Ok {| api_key := Some "env-key";
        app_name := None;
        blocked_message := Some "";
        _client := mkSDKClient (Some "env-key") None |}.
Proof. vm_compute. reflexivity. Qed.

(** The service raises a timeout inside the hook: nothing is logged or
    emitted. *)
Lemma check_message_compliance_raise_is_silent_witness :
  let timeout := OtherException "TimeoutError" "timed out" in
  let run :=
    check_message_compliance Sample.repr_detections
      (Sample.sdk_raising timeout) Sample.alice Sample.ctx (PyStr "hello")
      None Sample.empty_world in
  fst run = Raise (Exception "Moderation service failure (Alice)" timeout) /\
  warning_count (trace (snd run)) = 0 /\
  emit_count (trace (snd run)) = 0.
Proof.
  intros timeout run.
  assert (Hraise : fst run
            = Raise (Exception "Moderation service failure (Alice)" timeout))
    by reflexivity.
  destruct (check_message_compliance_raise_is_silent Sample.repr_detections
              (Sample.sdk_raising timeout) Sample.alice Sample.ctx
              (PyStr "hello") None Sample.empty_world _ Hraise)
    as (Hwarn & Hemit & _).
  split; [exact Hraise|]. split; [exact Hwarn | exact Hemit].
Defined.

(** A container without a logger: the call raises for the logger and the
    world is untouched. *)
Lemma configure_container_missing_service_witness :
  let bindings : gmap string Value :=
    {[ NLPService_key := VHost "openai"; Meter_key := VHost "meter" ]} in
  let w : World unit :=
    {| trace := []; heap := {[ 1%positive := ObjContainer bindings ]} |} in
  exists key,
    configure_container Sample.alice 1%positive w
      = (Raise (UnresolvableType key), w) /\
    bindings !! key = None.
Proof.
  intros bindings w.
  destruct (configure_container_missing_service Sample.alice 1%positive w
              bindings) as (key & Hrun & Hkey & _).
  - vm_compute. reflexivity.
  - right. left. vm_compute. reflexivity.
  - exists key. split; [exact Hrun | exact Hkey].
Defined.

(** A host without engine hooks: the wrapper is installed, then the call
    raises. *)
Lemma configure_container_unreachable_hooks_witness :
  exists w',
    configure_container Sample.alice 1%positive Sample.bare_world
      = (Raise (UnresolvableType EngineHooks_key), w') /\
    heap w' !! 1%positive =
      Some (ObjContainer
              (<[NLPService_key :=
                   VAliceNLPServiceWrapper (VHost "openai")
                     (_client Sample.alice) (VHost "logger") (VHost "meter")]>
                 Sample.bare_bindings)) /\
    Sample.bare_bindings !! Alice_key = None.
Proof.
  eexists. split; [|split].
  - apply (configure_container_unreachable_hooks Sample.alice 1%positive
             Sample.bare_world Sample.bare_bindings
             (VHost "openai") (VHost "logger") (VHost "meter"));
      try (vm_compute; reflexivity).
    intros (l & hooks & Hbound & _). vm_compute in Hbound. discriminate.
  - simpl. apply lookup_insert_eq.
  - vm_compute. reflexivity.
Defined.

Lemma init_instance_invariant_witness :
  let self :=
    {| api_key := Some "env-key";
       app_name := None;
       blocked_message := Some default_blocked_message;
       _client := mkSDKClient (Some "env-key") None |} in
  __init__ {[ "ALICE_API_KEY" := "env-key" ]} None None (Some "") = Ok self /\
  (exists key, api_key self = Some key /\ key <> "") /\
  (exists text, blocked_message self = Some text).
Proof.
  intros self.
  assert (Hrun : __init__ {[ "ALICE_API_KEY" := "env-key" ]} None None
                   (Some "") = Ok self) by (vm_compute; reflexivity).
  destruct (init_instance_invariant {[ "ALICE_API_KEY" := "env-key" ]}
              None None (Some "") self Hrun) as (Hkey & Htext & _).
  split; [exact Hrun|]. split; [exact Hkey | exact Htext].
Defined.

(** Built from the environment alone, the adapter blocks with the
    built-in text. *)
Lemma check_message_compliance_blocks_with_default_witness :
  let self :=
    {| api_key := Some "env-key";
       app_name := None;
       blocked_message := Some default_blocked_message;
       _client := mkSDKClient (Some "env-key") None |} in
  __init__ {[ "ALICE_API_KEY" := "env-key" ]} None None None = Ok self /\
  check_message_compliance Sample.repr_detections
    (Sample.sdk_answering BLOCK None ["hate"]) self Sample.ctx
    (PyStr "hello") None Sample.empty_world =
  (Ok BAIL,
   after Sample.empty_world
     [SdkCall (_client self)
        {| user_id := "agent-3"; session_id := "session-7" |}
        (PyStr "hello") None;
      LogWarning "Prevented sending a non-compliant message: 'hello'.";
      EmitMessage "trace-42"
        {| message := Some "The generated message was blocked by guardrails.";
           participant := {| participant_id := "agent-3";
                             display_name := "Helper" |} |}]).
Proof.
  intros self.
  assert (Hinit : __init__ {[ "ALICE_API_KEY" := "env-key" ]} None None None
                  = Ok self) by (vm_compute; reflexivity).
  split; [exact Hinit|].
  apply (check_message_compliance_blocks_with_default Sample.repr_detections
           (Sample.sdk_answering BLOCK None ["hate"])
           {[ "ALICE_API_KEY" := "env-key" ]} None None None self Sample.ctx
           (PyStr "hello") None Sample.empty_world
           (mkEvaluateMessageResponse BLOCK None ["hate"]) Hinit).
  - left. reflexivity.
  - vm_compute. reflexivity.
  - discriminate.
  - reflexivity.
  - reflexivity.
Defined.

(** The sample host after registration: Alice and the wrapper are found,
    the session store is where it was. *)
Lemma configure_container_then_getitem_witness :
  let w' := snd (configure_container Sample.alice 1%positive
                   Sample.host_world) in
  container_getitem 1%positive Alice_key w' = (Ok (VAlice Sample.alice), w') /\
  fst (container_getitem 1%positive "SessionStore" w')
    = Ok (VHost "sessions").
Proof.
  intros w'.
  destruct (configure_container_then_getitem Sample.alice 1%positive
              2%positive Sample.host_world Sample.host_bindings
              (VHost "openai") (VHost "logger") (VHost "meter")
              Sample.host_hooks)
    as (Halice & _ & Hother); try (vm_compute; reflexivity).
  split; [exact Halice|].
  fold w' in Hother. rewrite Hother by discriminate.
  vm_compute. reflexivity.
Defined.

(** The sample host registered twice: the audit hook is followed by two
    copies of the compliance hook. *)
Lemma configure_container_twice_witness :
  exists w2,
    bind unit (configure_container Sample.alice 1%positive)
      (fun c1 => configure_container Sample.alice c1) Sample.host_world
      = (Ok 1%positive, w2) /\
    heap w2 !! 2%positive =
      Some (ObjEngineHooks
              {| on_message_generated :=
                   [HostHook "audit";
                    check_message_compliance_of Sample.alice;
                    check_message_compliance_of Sample.alice];
                 other_hook_lists := other_hook_lists Sample.host_hooks |}).
Proof.
  destruct (configure_container_twice Sample.alice 1%positive 2%positive
              Sample.host_world Sample.host_bindings
              (VHost "openai") (VHost "logger") (VHost "meter")
              Sample.host_hooks)
    as (w2 & bindings2 & Hrun & _ & _ & _ & _ & Hhooks);
    try (vm_compute; reflexivity).
  exists w2. split; [exact Hrun | exact Hhooks].
Defined.

(** With a payload the evaluator is called, whatever it answers: here it
    lets the message pass. *)
Lemma check_message_compliance_forwards_payload_witness :
  exists res rest,
    check_message_compliance Sample.repr_detections
      (Sample.sdk_answering ALLOW None []) Sample.alice Sample.ctx
      (PyStr "hello") None Sample.empty_world =
    (res,
     after Sample.empty_world
       (SdkCall (_client Sample.alice)
          {| user_id := "agent-3"; session_id := "session-7" |}
          (PyStr "hello") None :: rest)) /\
    Forall (fun e => is_SdkCall e = false) rest.
Proof.
  apply (proj1 (check_message_compliance_forwards_payload
                  Sample.repr_detections (Sample.sdk_answering ALLOW None [])
                  Sample.alice Sample.ctx (PyStr "hello") None
                  Sample.empty_world)).
  discriminate.
Defined.

(** C4 as stated fails: with no [blocked_message] parameter and
    [ALICE_BLOCKED_MESSAGE] set to the empty string, neither the
    parameter nor the variable supplies a value, and yet the blocked
    message is the empty string, not the built-in default. *)
Lemma init_default_for_empty_variable_counterexample :
  let environ : gmap string string :=
    {[ "ALICE_API_KEY" := "env-key"; "ALICE_BLOCKED_MESSAGE" := "" ]} in
  absent None /\
  absent (environ !! "ALICE_BLOCKED_MESSAGE") /\
  exists self,
    __init__ environ None None None = Ok self /\
    blocked_message self = Some "" /\
    blocked_message self
      <> Some "The generated message was blocked by guardrails.".
Proof.
  intros environ.
  split; [left; reflexivity|].
  split; [right; vm_compute; reflexivity|].
  eexists. split; [vm_compute; reflexivity|].
  split; [reflexivity | discriminate].
Qed.
